(** * MORSE ROS datastream adapter ([morse/middleware/ros/abstract_ros.py])

    A shallow embedding of the classes [AbstractROS], [ROSPublisher],
    [ROSPublisherTF] and [ROSReader], and the properties of topic-name
    derivation, message sequencing, the transform broadcast and the
    subscriber mailbox.

    Python [str] values are embedded as [string]; the [kwargs] dictionary
    of a datastream as a [gmap string string]; Python's unbounded [int]
    as [Z]; the attribute value [None] as [None : option _]. *)

From Stdlib Require Import ZArith Lia Ascii String.
From stdpp Require Import base option list strings gmap.
From Equations Require Import Equations.

Local Open Scope string_scope.

(** ** The regular expression of [get_topic_name] *)

Module Re.

(** The character class [[0-9]]. *)
Definition is_digit (c : ascii) : bool :=
  (48 <=? nat_of_ascii c)%nat && (nat_of_ascii c <=? 57)%nat.

(** The greedy group [([0-9]+)] read at the head of [s]: the longest run of
    digits and the input left after it.  Nothing follows the group in the
    pattern, so the greedy run is never given back. *)
Fixpoint span_digits (s : string) : string * string :=
  match s with
  | String c r =>
      if is_digit c
      then let '(g, rest) := span_digits r in (String c g, rest)
      else (EmptyString, s)
  | EmptyString => (EmptyString, EmptyString)
  end.

(** [re.match(r'\.([0-9]+)', s)]: group 1 and the input after the match. *)
Definition match_dot_digits (s : string) : option (string * string) :=
  match s with
  | String "." r =>
      match span_digits r with
      | (EmptyString, _) => None
      | (g, rest) => Some (g, rest)
      end
  | _ => None
  end.

Lemma span_digits_length s g rest :
  span_digits s = (g, rest) -> (String.length rest <= String.length s)%nat.
Proof.
  revert g rest; induction s as [|c r IH]; intros g rest; simpl.
  - intros [= _ <-]; simpl; lia.
  - destruct (is_digit c).
    + destruct (span_digits r) as [g' rest'] eqn:E.
      intros [= _ <-]. specialize (IH _ _ eq_refl). lia.
    + intros [= _ <-]; simpl; lia.
Qed.

Lemma match_dot_digits_length s g rest :
  match_dot_digits s = Some (g, rest) ->
  (String.length rest < String.length s)%nat.
Proof.
  destruct s as [|c r]; simpl; [discriminate|].
  destruct (ascii_dec c "."); [subst|].
  - destruct (span_digits r) as [g' rest'] eqn:E.
    apply span_digits_length in E.
    destruct g'; [discriminate|]. intros [= _ <-]. lia.
  - destruct c as [[] [] [] [] [] [] [] []]; try discriminate; congruence.
Qed.

(** [re.sub(r'\.([0-9]+)', r'\1', s)]: scan from the left; where the
    pattern matches, emit group 1 and resume after the match; elsewhere copy
    one character and move on by one. *)
Equations? sub_dot_digits (s : string) : string by wf (String.length s) lt :=
  sub_dot_digits EmptyString := EmptyString;
  sub_dot_digits (String c r)
    with Equations.Prop.Logic.inspect (match_dot_digits (String c r)) => {
    | exist _ (Some (g, rest)) Hm := g ++ sub_dot_digits rest;
    | exist _ None _ := String c (sub_dot_digits r) }.
Proof.
  exact (match_dot_digits_length (String c r) g rest Hm).
Qed.

(** [s.replace('.', '/')]. *)
Fixpoint replace_dot_slash (s : string) : string :=
  match s with
  | String c r =>
      String (if ascii_dec c "." then "/"%char else c) (replace_dot_slash r)
  | EmptyString => EmptyString
  end.

End Re.

(** [AbstractROS.get_topic_name], a function of [self.component_name]. *)
Definition get_topic_name (component_name : string) : string :=
  let topic_name := Re.sub_dot_digits component_name in
  "/" ++ Re.replace_dot_slash topic_name.

Example get_topic_name_ex1 :
  get_topic_name "robot.001.sensor.001" = "/robot001/sensor001".
Proof. reflexivity. Qed.

(** ** The derivation as the documentation words it

    First every ['.'] that stands immediately before a decimal digit is
    deleted, then every ['.'] that is left becomes ['/'], and a ['/'] is put
    in front. *)

Definition starts_with_digit (s : string) : bool :=
  match s with
  | String c _ => Re.is_digit c
  | EmptyString => false
  end.

Fixpoint delete_numeric_dots (s : string) : string :=
  match s with
  | String c r =>
      if bool_decide (c = "."%char) && starts_with_digit r
      then delete_numeric_dots r
      else String c (delete_numeric_dots r)
  | EmptyString => EmptyString
  end.

Definition topic_name_by_words (component_name : string) : string :=
  String "/" (Re.replace_dot_slash (delete_numeric_dots component_name)).

Fixpoint all_digits (s : string) : bool :=
  match s with
  | String c r => Re.is_digit c && all_digits r
  | EmptyString => true
  end.

Section TopicName.

Lemma dot_not_digit : Re.is_digit "." = false.
Proof. reflexivity. Qed.

Lemma span_digits_spec s g rest :
  Re.span_digits s = (g, rest) ->
  s = g ++ rest /\ all_digits g = true /\ starts_with_digit rest = false.
Proof.
  revert g rest; induction s as [|c r IH]; intros g rest; simpl.
  - intros [= <- <-]; auto.
  - destruct (Re.is_digit c) eqn:Hc.
    + destruct (Re.span_digits r) as [g' rest'].
      intros [= <- <-]. destruct (IH _ _ eq_refl) as (-> & Hg & Hr).
      simpl. rewrite Hc, Hg. auto.
    + intros [= <- <-]. simpl. auto.
Qed.

Lemma span_digits_head s :
  (Re.span_digits s).1 = EmptyString <-> starts_with_digit s = false.
Proof.
  destruct s as [|c r]; simpl; [tauto|].
  destruct (Re.is_digit c); [|tauto].
  destruct (Re.span_digits r); simpl. split; discriminate.
Qed.

Lemma match_dot_digits_Some c r g rest :
  Re.match_dot_digits (String c r) = Some (g, rest) ->
  c = "."%char /\ r = g ++ rest /\ all_digits g = true /\
  starts_with_digit r = true /\ starts_with_digit rest = false.
Proof.
  intros Hm.
  assert (c = "."%char) as ->.
  { destruct (decide (c = "."%char)) as [|Hne]; [done|].
    destruct c as [[] [] [] [] [] [] [] []]; simpl in Hm; congruence. }
  simpl in Hm.
  destruct (Re.span_digits r) as [g' rest'] eqn:E.
  pose proof (proj1 (span_digits_head r)) as Hh. rewrite E in Hh.
  destruct (span_digits_spec _ _ _ E) as (Hr & Hg & Hrest).
  destruct g' as [|d g']; [discriminate|]. injection Hm as <- <-.
  repeat split; try done.
  subst r. simpl in *. by apply andb_prop in Hg as [-> _].
Qed.

Lemma match_dot_digits_None c r :
  Re.match_dot_digits (String c r) = None ->
  bool_decide (c = "."%char) && starts_with_digit r = false.
Proof.
  intros Hm. case_bool_decide as Hc; [subst c|done].
  simpl in *. destruct (Re.span_digits r) as [g rest] eqn:E.
  apply span_digits_head. rewrite E. by destruct g.
Qed.

(** A run of digits holds no ['.'], so deletion walks through it. *)
Lemma delete_numeric_dots_digits g rest :
  all_digits g = true ->
  delete_numeric_dots (g ++ rest) = g ++ delete_numeric_dots rest.
Proof.
  induction g as [|c g IH]; simpl; [done|].
  intros [Hc Hg]%andb_prop.
  case_bool_decide as Hdot; [subst c; by rewrite dot_not_digit in Hc|].
  simpl. by rewrite IH.
Qed.

(** The scanning substitution deletes exactly the dots that stand before
    a digit. *)
Lemma sub_dot_digits_deletes s :
  Re.sub_dot_digits s = delete_numeric_dots s.
Proof.
  funelim (Re.sub_dot_digits s); simp sub_dot_digits; [done| |].
  - clear Heqcall.
    match goal with
    | Hm : Re.match_dot_digits _ = Some _, E : _ = _ :> sigma _ |- _ =>
        clear E;
        destruct (match_dot_digits_Some _ _ _ _ Hm) as (-> & -> & Hg & Hd & _)
    end.
    simpl. rewrite Hd. simpl.
    rewrite delete_numeric_dots_digits by done. by f_equal.
  - clear Heqcall.
    match goal with
    | Hm : Re.match_dot_digits _ = None |- _ =>
        apply match_dot_digits_None in Hm as Hn
    end.
    simpl. rewrite Hn. by f_equal.
Qed.

End TopicName.

(** C2. [get_topic_name] is the component name with each ['.'] that stands
    immediately before a run of decimal digits deleted, every other ['.']
    turned into ['/'] and a ['/'] in front; ['robot.001.sensor.001'] gives
    ['/robot001/sensor001']. *)
Theorem get_topic_name_derivation :
  (forall component_name,
     get_topic_name component_name = topic_name_by_words component_name) /\
  get_topic_name "robot.001.sensor.001" = "/robot001/sensor001".
Proof.
  split; [|reflexivity].
  intros cn. unfold get_topic_name, topic_name_by_words.
  by rewrite sub_dot_digits_deletes.
Qed.

(** ** The platform the adapter is written against

    [rospy], [std_msgs], [geometry_msgs] and the game engine are not part of
    the adapter.  Their value types stay abstract: a time stamp, a vector, a
    quaternion, an orientation matrix, and the payload of a topic together
    with its Python truth value ([bool(x)]). *)

Class Platform := {
  Time : Type;
  Time_zero : Time;
  Time_bool : Time -> bool;
  Vector3 : Type;
  Vector3_zero : Vector3;
  Quaternion : Type;
  Quaternion_zero : Quaternion;
  Matrix : Type;
  to_quaternion : Matrix -> Quaternion;
  Msg : Type;
  Msg_bool : Msg -> bool
}.

(** The class handed to [rospy.Publisher] and [rospy.Subscriber]. *)
Inductive ros_class :=
| cls_String
| cls_tfMessage
| cls_other (name : string).

Record Publisher := { pub_name : string; pub_class : ros_class }.
Record Subscriber := { sub_name : string; sub_class : ros_class }.

(** Truth value of a Python [str] and of an optional argument. *)
Definition str_bool (s : string) : bool :=
  match s with EmptyString => false | String _ _ => true end.

Definition opt_bool {A} (f : A -> bool) (o : option A) : bool :=
  match o with Some a => f a | None => false end.

Section Messages.
Context {P : Platform}.

(** [std_msgs/Header]. *)
Record Header := { hdr_seq : Z; hdr_stamp : Time; hdr_frame_id : string }.

(** [geometry_msgs/Transform] and [geometry_msgs/TransformStamped]. *)
Record Transform := { translation : Vector3; rotation : Quaternion }.
Record TransformStamped := {
  header : Header;
  child_frame_id : string;
  transform : Transform
}.

(** Modelled from the spec: [morse.middleware.ros.tfMessage.tfMessage],
    the message struct of the ["/tf"] topic, is not among the sources; it
    is the generated message class whose one field, the first positional
    argument of its constructor, is the list of stamped transforms. *)
Record tfMessage := { transforms : list TransformStamped }.

(** The constructors called without arguments. *)
Definition Header_new : Header :=
  {| hdr_seq := 0; hdr_stamp := Time_zero; hdr_frame_id := EmptyString |}.
Definition Transform_new : Transform :=
  {| translation := Vector3_zero; rotation := Quaternion_zero |}.
Definition TransformStamped_new : TransformStamped :=
  {| header := Header_new; child_frame_id := EmptyString;
     transform := Transform_new |}.

(** Attribute assignments. *)
Definition set_hdr_seq (n : Z) (h : Header) : Header :=
  {| hdr_seq := n; hdr_stamp := hdr_stamp h; hdr_frame_id := hdr_frame_id h |}.
Definition set_hdr_stamp (t : Time) (h : Header) : Header :=
  {| hdr_seq := hdr_seq h; hdr_stamp := t; hdr_frame_id := hdr_frame_id h |}.
Definition set_hdr_frame_id (f : string) (h : Header) : Header :=
  {| hdr_seq := hdr_seq h; hdr_stamp := hdr_stamp h; hdr_frame_id := f |}.
Definition set_header (f : Header -> Header) (t : TransformStamped)
  : TransformStamped :=
  {| header := f (header t); child_frame_id := child_frame_id t;
     transform := transform t |}.
Definition set_child_frame_id (c : string) (t : TransformStamped)
  : TransformStamped :=
  {| header := header t; child_frame_id := c; transform := transform t |}.
Definition set_transform (f : Transform -> Transform) (t : TransformStamped)
  : TransformStamped :=
  {| header := header t; child_frame_id := child_frame_id t;
     transform := f (transform t) |}.
Definition set_translation (v : Vector3) (t : Transform) : Transform :=
  {| translation := v; rotation := rotation t |}.
Definition set_rotation (q : Quaternion) (t : Transform) : Transform :=
  {| translation := translation t; rotation := q |}.

(** What a publisher hands to the middleware. *)
Inductive Payload :=
| Data (m : Msg)
| Tf (m : tfMessage).

(** The state outside the instance: the node, the clock that
    [rospy.Time.now()] reads, the class attribute
    [ROSPublisherTF.topic_tf], and the messages published so far with
    the topic each went to, oldest first. *)
Record Ros := {
  node_up : bool;
  now : Time;
  topic_tf : option Publisher;
  wire : list (string * Payload)
}.

Definition set_node_up (b : bool) (w : Ros) : Ros :=
  {| node_up := b; now := now w; topic_tf := topic_tf w; wire := wire w |}.
Definition set_topic_tf (p : option Publisher) (w : Ros) : Ros :=
  {| node_up := node_up w; now := now w; topic_tf := p; wire := wire w |}.
Definition send (name : string) (m : Payload) (w : Ros) : Ros :=
  {| node_up := node_up w; now := now w; topic_tf := topic_tf w;
     wire := wire w ++ [(name, m)] |}.

(** The messages that went to one topic, oldest first. *)
Definition sent_on (name : string) (w : Ros) : list Payload :=
  (filter (fun e => e.1 = name) (wire w)).*2.

(** An instance together with the state outside it. *)
Record Sys (Self : Type) := { this : Self; ros : Ros }.
Global Arguments this {_} _.
Global Arguments ros {_} _.

Definition set_this {Self} (f : Self -> Self) (s : Sys Self) : Sys Self :=
  {| this := f (this s); ros := ros s |}.
Definition set_ros {Self} (f : Ros -> Ros) (s : Sys Self) : Sys Self :=
  {| this := this s; ros := f (ros s) |}.

End Messages.

(** ** Methods as state transformers that may raise *)

Inductive exn :=
| AttributeError (attr : string).

Inductive result (S A : Type) :=
| Ok (a : A) (s : S)
| Raise (e : exn) (s : S).
Arguments Ok {S A} a s.
Arguments Raise {S A} e s.

Definition M (S A : Type) : Type := S -> result S A.

#[global] Instance M_ret {S} : MRet (M S) := fun A a s => Ok a s.
#[global] Instance M_bind {S} : MBind (M S) := fun A B f m s =>
  match m s with
  | Ok a s' => f a s'
  | Raise e s' => Raise e s'
  end.

Definition gets {S A} (f : S -> A) : M S A := fun s => Ok (f s) s.
Definition modify {S} (f : S -> S) : M S unit := fun s => Ok tt (f s).
Definition raise {S A} (e : exn) : M S A := fun s => Raise e s.

(** The state a run ends in, returned or raised. *)
Definition final {S A} (r : result S A) : S :=
  match r with Ok _ s => s | Raise _ s => s end.

(** ** [rospy] *)

Section Rospy.
Context {P : Platform}.

Definition init_node : M Ros unit := modify (set_node_up true).

Definition rospy_Publisher (name : string) (cls : ros_class)
  : M Ros Publisher :=
  mret {| pub_name := name; pub_class := cls |}.

Definition rospy_Subscriber (name : string) (cls : ros_class)
  : M Ros Subscriber :=
  mret {| sub_name := name; sub_class := cls |}.

Definition Time_now : M Ros Time := gets now.

Definition Publisher_publish (p : Publisher) (m : Payload) : M Ros unit :=
  modify (send (pub_name p) m).

(** A middleware call made from inside a method of an instance. *)
Definition on_ros {Self A} (m : M Ros A) : M (Sys Self) A := fun s =>
  match m (ros s) with
  | Ok a w => Ok a {| this := this s; ros := w |}
  | Raise e w => Raise e {| this := this s; ros := w |}
  end.

(** [obj.attr] where [obj] may be [None]. *)
Definition attr_of {S A B} (o : option A) (attr : string) (k : A -> M S B)
  : M S B :=
  match o with
  | Some a => k a
  | None => raise (AttributeError attr)
  end.

(** What [AbstractDatastream] gives every datastream before
    [initialize]: the keyword arguments, the name of the component and
    the component's object in the game engine. *)
Record BgeObject := {
  localPosition : Vector3;
  localOrientation : Matrix;
  localScale : Vector3
}.

Record Datastream := {
  kwargs : gmap string string;
  component_name : string;
  bge_object : BgeObject
}.

End Rospy.

(** ** class [AbstractROS] *)

Module AbstractROS.
Section AbstractROS.
Context {P : Platform} {T : Type}.

(** [T] is the kind of handle the subclass keeps in [self.topic]. *)
Record t := {
  ds : Datastream;
  topic : option T;
  topic_name : string
}.

Definition set_topic (p : option T) (self : t) : t :=
  {| ds := ds self; topic := p; topic_name := topic_name self |}.

Definition initialize (d : Datastream) : M Ros t :=
  init_node;;
  let topic := None in
  let topic_name :=
    match kwargs d !! "topic" with
    | Some name => name
    | None => get_topic_name (component_name d)
    end in
  mret {| ds := d; topic := topic; topic_name := topic_name |}.

End AbstractROS.
Global Arguments t {_} T.
End AbstractROS.

(** ** class [ROSPublisher] *)

Module ROSPublisher.
Section ROSPublisher.
Context {P : Platform}.

Record t := {
  super : AbstractROS.t Publisher;
  frame_id : string;
  sequence : Z
}.

Definition set_sequence (f : Z -> Z) (self : t) : t :=
  {| super := super self; frame_id := frame_id self;
     sequence := f (sequence self) |}.

Definition initialize (d : Datastream) (cls : ros_class) : M Ros t :=
  base ← AbstractROS.initialize d;
  let topic_name := AbstractROS.topic_name base in
  let topic_name :=
    match kwargs (AbstractROS.ds base) !! "topic_suffix" with
    | Some suffix => topic_name ++ suffix
    | None => topic_name
    end in
  p ← rospy_Publisher topic_name cls;
  let base := AbstractROS.set_topic (Some p) base in
  mret {| super := base;
          frame_id := default (AbstractROS.topic_name base)
                              (kwargs (AbstractROS.ds base) !! "frame_id");
          sequence := 0 |}.

Definition get_ros_header : M (Sys t) Header :=
  let header := Header_new in
  stamp ← on_ros Time_now;
  let header := set_hdr_stamp stamp header in
  n ← gets (fun s => sequence (this s));
  let header := set_hdr_seq n header in
  f ← gets (fun s => frame_id (this s));
  let header := set_hdr_frame_id f header in
  mret header.

Definition publish (message : Msg) : M (Sys t) unit :=
  tp ← gets (fun s => AbstractROS.topic (super (this s)));
  attr_of tp "publish" (fun p => on_ros (Publisher_publish p (Data message)));;
  modify (set_this (set_sequence (fun n => n + 1)%Z)).

End ROSPublisher.
End ROSPublisher.

(** ** class [ROSPublisherTF]

    The subclass adds no attribute to the instance: [topic_tf] belongs to
    the class and is shared by all instances. *)

Module ROSPublisherTF.
Section ROSPublisherTF.
Context {P : Platform}.

Definition initialize (d : Datastream) (cls : ros_class)
  : M Ros ROSPublisher.t :=
  self ← ROSPublisher.initialize d cls;
  tf ← gets topic_tf;
  (if opt_bool (fun _ => true) tf
   then mret ()
   else p ← rospy_Publisher "/tf" cls_tfMessage;
        modify (set_topic_tf (Some p)));;
  mret self.

Definition get_local_transform
  : M (Sys ROSPublisher.t) (Vector3 * Quaternion * Vector3) :=
  obj ← gets (fun s =>
    bge_object (AbstractROS.ds (ROSPublisher.super (this s))));
  mret (localPosition obj, to_quaternion (localOrientation obj),
        localScale obj).

Definition publish_tf (message : tfMessage) : M (Sys ROSPublisher.t) unit :=
  tf ← gets (fun s => topic_tf (ros s));
  attr_of tf "publish" (fun p => on_ros (Publisher_publish p (Tf message))).

Definition sendTransform (translation : Vector3) (rotation : Quaternion)
    (time : Time) (child parent : string) : M (Sys ROSPublisher.t) unit :=
  let t := TransformStamped_new in
  let t := set_header (set_hdr_frame_id parent) t in
  let t := set_header (set_hdr_stamp time) t in
  let t := set_child_frame_id child t in
  let t := set_transform (set_translation translation) t in
  let t := set_transform (set_rotation rotation) t in
  let tfm := {| transforms := [t] |} in
  publish_tf tfm.

Definition send_transform_robot (time : option Time)
    (child parent : option string) : M (Sys ROSPublisher.t) unit :=
  '(translation, rotation, _) ← get_local_transform;
  time ← match time with
         | Some t => if Time_bool t then mret t else on_ros Time_now
         | None => on_ros Time_now
         end;
  child ← match child with
          | Some c =>
              if str_bool c then mret c
              else gets (fun s => ROSPublisher.frame_id (this s))
          | None => gets (fun s => ROSPublisher.frame_id (this s))
          end;
  parent ← match parent with
           | Some p =>
               if str_bool p then mret p
               else gets (fun s =>
                 default "base_link"
                   (kwargs (AbstractROS.ds (ROSPublisher.super (this s)))
                      !! "parent_frame_id"))
           | None => gets (fun s =>
                 default "base_link"
                   (kwargs (AbstractROS.ds (ROSPublisher.super (this s)))
                      !! "parent_frame_id"))
           end;
  sendTransform translation rotation time child parent.

End ROSPublisherTF.
End ROSPublisherTF.

(** ** class [ROSReader] *)

Module ROSReader.
Section ROSReader.
Context {P : Platform} {D : Type}.

(** [message] is the mailbox; [local_data] stands for what a subclass
    keeps on the instance beside it. *)
Record t := {
  super : AbstractROS.t Subscriber;
  message : option Msg;
  local_data : D
}.

Definition set_message (m : option Msg) (self : t) : t :=
  {| super := super self; message := m; local_data := local_data self |}.
Definition set_local_data (f : D -> D) (self : t) : t :=
  {| super := super self; message := message self;
     local_data := f (local_data self) |}.

(** [update] is the method a subclass overrides. *)
Context (update : Msg -> M (Sys t) unit).

Definition initialize (d : Datastream) (data : D) (cls : ros_class)
  : M Ros t :=
  base ← AbstractROS.initialize d;
  let message := None in
  sub ← rospy_Subscriber (AbstractROS.topic_name base) cls;
  mret {| super := AbstractROS.set_topic (Some sub) base;
          message := message; local_data := data |}.

Definition callback (message' : Msg) : M (Sys t) unit :=
  cur ← gets (fun s => message (this s));
  match cur with
  | None => modify (set_this (set_message (Some message')))
  | Some _ => mret ()
  end.

Definition default : M (Sys t) bool :=
  cur ← gets (fun s => message (this s));
  match cur with
  | Some m =>
      if Msg_bool m
      then update m;;
           modify (set_this (set_message None));;
           mret true
      else mret false
  | None => mret false
  end.

(** [ROSReader.update] itself: [pass]. *)
Definition update_pass (message' : Msg) : M (Sys t) unit := mret ().

End ROSReader.
Global Arguments t {_} D.
End ROSReader.

(** ** Callers: what the middleware and the simulator do with a reader *)

Section Drivers.
Context {P : Platform}.

(** One call after the other, stopping at the first that raises. *)
Fixpoint for_each {S A} (f : A -> M S unit) (l : list A) : M S unit :=
  match l with
  | [] => mret ()
  | a :: r => f a;; for_each f r
  end.

(** The middleware delivers a message ([callback]); the simulator polls
    ([default]). *)
Inductive reader_op :=
| Deliver (m : Msg)
| Poll.

Context {D : Type} (update : Msg -> M (Sys (ROSReader.t D)) unit).

(** Runs the calls in order and collects what each poll returned. *)
Fixpoint run_reader (ops : list reader_op)
  : M (Sys (ROSReader.t D)) (list bool) :=
  match ops with
  | [] => mret []
  | Deliver m :: r => ROSReader.callback m;; run_reader r
  | Poll :: r =>
      b ← ROSReader.default update;
      bs ← run_reader r;
      mret (b :: bs)
  end.

(** The unread messages an instance buffers. *)
Definition unread (self : ROSReader.t D) : list Msg :=
  match ROSReader.message self with
  | Some m => [m]
  | None => []
  end.

End Drivers.

(** ** A platform to run the model on

    Time stamps are integers, vectors and quaternions tuples of integers,
    and payloads are Python strings, whose truth value is being non-empty. *)

Module Demo.

Definition platform : Platform := {|
  Time := Z;
  Time_zero := 0%Z;
  Time_bool := fun t => negb (t =? 0)%Z;
  Vector3 := Z * Z * Z;
  Vector3_zero := (0, 0, 0)%Z;
  Quaternion := Z * Z * Z * Z;
  Quaternion_zero := (0, 0, 0, 0)%Z;
  Matrix := Z * Z * Z * Z;
  to_quaternion := fun m => m;
  Msg := string;
  Msg_bool := str_bool
|}.

#[local] Existing Instance platform.

(** The module is loaded and nothing has run yet. *)
Definition boot : Ros :=
  {| node_up := false; now := 17%Z; topic_tf := None; wire := [] |}.

Definition origin : BgeObject :=
  {| localPosition := (1, 2, 3)%Z; localOrientation := (0, 0, 0, 1)%Z;
     localScale := (1, 1, 1)%Z |}.

Definition sensor (kw : gmap string string) : Datastream :=
  {| kwargs := kw; component_name := "robot.001.sensor.001";
     bge_object := origin |}.

(** A reader whose [update] appends the message to its data. *)
Definition record_update (m : string)
  : M (Sys (ROSReader.t (list string))) unit :=
  modify (set_this (ROSReader.set_local_data (fun l => (l ++ [m])%list))).

(** An initialized reader of that sensor with [slot] in its mailbox. *)
Definition reader (slot : option string) : Sys (ROSReader.t (list string)) :=
  {| this :=
       {| ROSReader.super :=
            {| AbstractROS.ds := sensor ∅;
               AbstractROS.topic :=
                 Some {| sub_name := "/robot001/sensor001";
                         sub_class := cls_String |};
               AbstractROS.topic_name := "/robot001/sensor001" |};
          ROSReader.message := slot;
          ROSReader.local_data := [] |};
     ros := set_node_up true boot |}.

Example reader_initialized :
  ROSReader.initialize (sensor ∅) [] cls_String boot
  = Ok (this (reader None)) (ros (reader None)).
Proof. reflexivity. Qed.

(** The first transform publisher initialized after the module is
    loaded. *)
Definition broadcaster : Sys ROSPublisher.t :=
  {| this :=
       {| ROSPublisher.super :=
            {| AbstractROS.ds := sensor ∅;
               AbstractROS.topic :=
                 Some {| pub_name := "/robot001/sensor001";
                         pub_class := cls_String |};
               AbstractROS.topic_name := "/robot001/sensor001" |};
          ROSPublisher.frame_id := "/robot001/sensor001";
          ROSPublisher.sequence := 0 |};
     ros := {| node_up := true; now := 17%Z;
               topic_tf := Some {| pub_name := "/tf";
                                   pub_class := cls_tfMessage |};
               wire := [] |} |}.

End Demo.

(** ** The subscriber's mailbox *)

Section ReaderFacts.
Context {P : Platform} {D : Type}.
Implicit Types (s : Sys (ROSReader.t D)) (m : Msg).
Variable update : Msg -> M (Sys (ROSReader.t D)) unit.

(** How many of the calls are polls. *)
Fixpoint polls (ops : list reader_op) : nat :=
  match ops with
  | [] => 0
  | Deliver _ :: r => polls r
  | Poll :: r => S (polls r)
  end.

Lemma callback_empty s m :
  ROSReader.message (this s) = None ->
  ROSReader.callback m s = Ok () (set_this (ROSReader.set_message (Some m)) s).
Proof.
  intros Hs. unfold ROSReader.callback, mbind, M_bind, gets. by rewrite Hs.
Qed.

Lemma callback_occupied s m m' :
  ROSReader.message (this s) = Some m ->
  ROSReader.callback m' s = Ok () s.
Proof.
  intros Hs. unfold ROSReader.callback, mbind, M_bind, gets. by rewrite Hs.
Qed.

Lemma default_not_truthy s :
  opt_bool Msg_bool (ROSReader.message (this s)) = false ->
  ROSReader.default update s = Ok false s.
Proof.
  intros Hs. unfold ROSReader.default, mbind, M_bind, gets.
  destruct (ROSReader.message (this s)) as [m|]; [|done].
  simpl in Hs. by rewrite Hs.
Qed.

Lemma default_truthy s m :
  ROSReader.message (this s) = Some m -> Msg_bool m = true ->
  ROSReader.default update s =
    match update m s with
    | Ok _ s' => Ok true (set_this (ROSReader.set_message None) s')
    | Raise e s' => Raise e s'
    end.
Proof.
  intros Hs Hm. unfold ROSReader.default, mbind, M_bind, gets.
  rewrite Hs, Hm. by destruct (update m s).
Qed.

Lemma default_returns s b s' :
  ROSReader.default update s = Ok b s' ->
  b = opt_bool Msg_bool (ROSReader.message (this s)).
Proof.
  destruct (opt_bool Msg_bool (ROSReader.message (this s))) eqn:Hb.
  - destruct (ROSReader.message (this s)) as [m|] eqn:Hs; [|done].
    rewrite (default_truthy _ _ Hs Hb).
    destruct (update m s); congruence.
  - rewrite (default_not_truthy _ Hb). congruence.
Qed.

Lemma unread_le_1 (self : ROSReader.t D) : length (unread self) <= 1.
Proof. unfold unread. destruct (ROSReader.message self); simpl; lia. Qed.

(** A buffered message without truth value pins the reader: whatever is
    delivered or polled afterwards, nothing changes and every poll
    answers [False]. *)
Lemma run_reader_stuck s m ops :
  ROSReader.message (this s) = Some m -> Msg_bool m = false ->
  run_reader update ops s = Ok (replicate (polls ops) false) s.
Proof.
  intros Hs Hm. induction ops as [|[m'|] ops IH]; simpl; [done| |].
  - unfold mbind, M_bind. by rewrite (callback_occupied _ _ _ Hs).
  - unfold mbind, M_bind at 1. rewrite default_not_truthy.
    + unfold mbind, M_bind. by rewrite IH.
    + by rewrite Hs.
Qed.

End ReaderFacts.


Section ReaderClaims.
Context {P : Platform} {D : Type}.
Implicit Types (s : Sys (ROSReader.t D)) (m : Msg).

(** C1, as the code has it.  When [callback] is invoked with a new
    message while an unread message is still buffered, the new message is
    silently dropped: the call returns and leaves the instance and the
    middleware as they were, so the slot still holds the older message. *)
Theorem callback_drops_newer s older newer :
  ROSReader.message (this s) = Some older ->
  ROSReader.callback newer s = Ok () s /\
  ROSReader.message (this (final (ROSReader.callback newer s))) = Some older.
Proof.
  intros Hs. rewrite (callback_occupied _ _ newer Hs). by split.
Qed.


(** C5.  A reader starts with nothing buffered, and after any sequence of
    deliveries and polls, in any order, it buffers at most one unread
    message. *)
Theorem mailbox_at_most_one
    (update : Msg -> M (Sys (ROSReader.t D)) unit)
    (d : Datastream) (data : D) (cls : ros_class) (w : Ros)
    (ops : list reader_op) :
  exists self w',
    ROSReader.initialize d data cls w = Ok self w' /\
    unread self = [] /\
    length (unread (this (final
      (run_reader update ops {| this := self; ros := w' |})))) <= 1.
Proof.
  eexists _, _. split; [reflexivity|]. split; [reflexivity|].
  apply unread_le_1.
Qed.

(** C10.  If the slot holds a message whose truth value is [False],
    [default] returns [False] and leaves the slot occupied; from then on
    every delivery is discarded and every poll returns [False], with the
    message still in the slot.  Whenever [default] returns, the value it
    returns is the truth value of what the slot held, and with the
    [update] of [ROSReader] itself it always returns. *)
Theorem falsy_message_blocks
    (update : Msg -> M (Sys (ROSReader.t D)) unit) s m :
  ROSReader.message (this s) = Some m -> Msg_bool m = false ->
  ROSReader.default update s = Ok false s /\
  (forall m', ROSReader.callback m' s = Ok () s) /\
  (forall ops,
      run_reader update ops s = Ok (replicate (polls ops) false) s) /\
  (forall s0 b s1,
      ROSReader.default update s0 = Ok b s1 ->
      b = opt_bool Msg_bool (ROSReader.message (this s0))) /\
  (forall s0, exists s1,
      ROSReader.default ROSReader.update_pass s0
      = Ok (opt_bool Msg_bool (ROSReader.message (this s0))) s1).
Proof.
  intros Hs Hm. repeat split.
  - apply default_not_truthy. by rewrite Hs.
  - intros m'. exact (callback_occupied _ _ m' Hs).
  - intros ops. exact (run_reader_stuck update _ _ ops Hs Hm).
  - apply default_returns.
  - intros s0.
    destruct (opt_bool Msg_bool (ROSReader.message (this s0))) eqn:Hb.
    + destruct (ROSReader.message (this s0)) as [m0|] eqn:Hs0; [|done].
      rewrite (default_truthy _ _ _ Hs0 Hb). by eexists.
    + rewrite (default_not_truthy _ _ Hb). by eexists.
Qed.

End ReaderClaims.

(** *** The mailbox on the demonstration platform *)

Section ReaderRuns.
Local Existing Instance Demo.platform.

Local Abbreviation callback := (ROSReader.callback (P:=Demo.platform)).
Local Abbreviation poll :=
  (ROSReader.default (P:=Demo.platform) Demo.record_update).
Local Abbreviation run := (run_reader (P:=Demo.platform) Demo.record_update).

(** C1 at an input: with ['old'] buffered, delivering ['new'] leaves
    ['old'] in the slot, not ['new']. *)
Lemma callback_newer_not_stored :
  ROSReader.message (this (Demo.reader (Some "old"))) = Some "old" /\
  ROSReader.message (this (final (callback "new" (Demo.reader (Some "old")))))
  <> Some "new".
Proof. split; [reflexivity|]. vm_compute. discriminate. Qed.

Lemma callback_drops_newer_witness :
  callback "new" (Demo.reader (Some "old"))
  = Ok () (Demo.reader (Some "old")) /\
  ROSReader.message (this (final (callback "new" (Demo.reader (Some "old")))))
  = Some "old".
Proof.
  apply (callback_drops_newer (P:=Demo.platform)
           (Demo.reader (Some "old")) "old" "new").
  reflexivity.
Defined.

Lemma falsy_message_blocks_witness :
  poll (Demo.reader (Some EmptyString))
  = Ok false (Demo.reader (Some EmptyString)) /\
  run [Deliver "a"; Poll; Deliver "b"; Poll]
    (Demo.reader (Some EmptyString))
  = Ok [false; false] (Demo.reader (Some EmptyString)).
Proof.
  destruct (falsy_message_blocks (P:=Demo.platform) Demo.record_update
              (Demo.reader (Some EmptyString)) EmptyString
              eq_refl eq_refl) as (Hd & _ & Hrun & _ & _).
  split; [exact Hd|].
  exact (Hrun [Deliver "a"; Poll; Deliver "b"; Poll]).
Defined.

End ReaderRuns.

(** ** Computations that leave the instance alone *)

Section Frame.
Context {P : Platform} {Self : Type}.

Definition keeps_this {A} (c : M (Sys Self) A) : Prop :=
  forall s, this (final (c s)) = this s.

Lemma keeps_this_ret {A} (a : A) : keeps_this (mret a).
Proof. by intros s. Qed.

Lemma keeps_this_gets {A} (f : Sys Self -> A) : keeps_this (gets f).
Proof. by intros s. Qed.

Lemma keeps_this_raise {A} e : keeps_this (raise e : M _ A).
Proof. by intros s. Qed.

Lemma keeps_this_on_ros {A} (c : M Ros A) : keeps_this (on_ros c).
Proof. intros s. unfold on_ros. by destruct (c (ros s)). Qed.

Lemma keeps_this_bind {A B} (c : M (Sys Self) A) (k : A -> M (Sys Self) B) :
  keeps_this c -> (forall a, keeps_this (k a)) -> keeps_this (c ≫= k).
Proof.
  intros Hc Hk s. specialize (Hc s). unfold mbind, M_bind.
  destruct (c s) as [a s'|e s']; simpl in Hc; [|done].
  by rewrite Hk.
Qed.

Lemma keeps_this_attr_of {A B} (o : option A) attr
    (k : A -> M (Sys Self) B) :
  (forall a, keeps_this (k a)) -> keeps_this (attr_of o attr k).
Proof. intros Hk. destruct o; [apply Hk|apply keeps_this_raise]. Qed.

End Frame.

Create HintDb frame discriminated.
#[global] Hint Resolve keeps_this_ret keeps_this_gets keeps_this_raise
  keeps_this_on_ros keeps_this_attr_of : frame.

(** Walks through binds and case distinctions, closing what the hints
    close. *)
Ltac frame_steps :=
  repeat first
    [ solve [auto with frame]
    | apply keeps_this_bind
    | match goal with
      | |- keeps_this (match ?x with _ => _ end) => destruct x
      | |- keeps_this (if ?x then _ else _) => destruct x
      | |- forall _, _ => intro
      end ].

(** ** The publisher *)

Section PublisherFacts.
Context {P : Platform}.
Implicit Types (s : Sys ROSPublisher.t) (w : Ros).

(** What [publish] hands to the middleware for a list of messages. *)
Definition published (p : Publisher) (msgs : list Msg)
  : list (string * Payload) :=
  (fun m => (pub_name p, Data m)) <$> msgs.

(** The class attribute is either unset or the publisher of ["/tf"]. *)
Definition tf_wf w : Prop :=
  forall p, topic_tf w = Some p -> pub_name p = "/tf".
Definition tf_ready w : Prop :=
  exists p, topic_tf w = Some p /\ pub_name p = "/tf".

(** The stamped transform [sendTransform] builds. *)
Definition stamped (translation : Vector3) (rotation : Quaternion)
    (time : Time) (child parent : string) : TransformStamped :=
  {| header := {| hdr_seq := 0; hdr_stamp := time; hdr_frame_id := parent |};
     child_frame_id := child;
     transform := {| translation := translation; rotation := rotation |} |}.

Lemma sys_eta {Self} (x : Sys Self) : {| this := this x; ros := ros x |} = x.
Proof. by destruct x. Qed.

Lemma publish_some s p m :
  AbstractROS.topic (ROSPublisher.super (this s)) = Some p ->
  ROSPublisher.publish m s
  = Ok () (set_this (ROSPublisher.set_sequence (fun n => n + 1)%Z)
             (set_ros (send (pub_name p) (Data m)) s)).
Proof.
  intros Hp. unfold ROSPublisher.publish, mbind, M_bind, gets.
  by rewrite Hp.
Qed.

Lemma publish_none s m :
  AbstractROS.topic (ROSPublisher.super (this s)) = None ->
  ROSPublisher.publish m s = Raise (AttributeError "publish") s.
Proof.
  intros Hp. unfold ROSPublisher.publish, mbind, M_bind, gets.
  by rewrite Hp.
Qed.

Lemma for_each_publish s p msgs :
  AbstractROS.topic (ROSPublisher.super (this s)) = Some p ->
  exists s',
    for_each ROSPublisher.publish msgs s = Ok () s' /\
    ROSPublisher.sequence (this s')
    = (ROSPublisher.sequence (this s) + Z.of_nat (length msgs))%Z /\
    wire (ros s') = (wire (ros s) ++ published p msgs)%list.
Proof.
  revert s. induction msgs as [|m msgs IH]; intros s Hp; simpl.
  - exists s. split; [done|]. split; [lia|]. by rewrite app_nil_r.
  - unfold mbind, M_bind. rewrite (publish_some _ _ _ Hp).
    destruct (IH (set_this (ROSPublisher.set_sequence (fun n => n + 1)%Z)
                    (set_ros (send (pub_name p) (Data m)) s)) Hp)
      as (s' & -> & Hn & Hw).
    exists s'. split; [done|]. rewrite Hn, Hw. simpl.
    split; [lia|]. by rewrite <- app_assoc.
Qed.

Lemma publisher_initialized (d : Datastream) (cls : ros_class) w :
  exists self w' p,
    ROSPublisher.initialize d cls w = Ok self w' /\
    ROSPublisher.sequence self = 0%Z /\
    AbstractROS.topic (ROSPublisher.super self) = Some p.
Proof. eexists _, _, _. repeat split. Qed.

Lemma initialize_tf_ready (d : Datastream) (cls : ros_class) w :
  tf_wf w ->
  exists self w',
    ROSPublisherTF.initialize d cls w = Ok self w' /\ tf_ready w'.
Proof.
  intros Hw. unfold ROSPublisherTF.initialize, mbind, M_bind. simpl.
  destruct (topic_tf w) as [p|] eqn:Htf; simpl.
  - eexists _, _. split; [reflexivity|]. exists p. simpl. split; [done|].
    by apply Hw.
  - eexists _, _. split; [reflexivity|]. by eexists.
Qed.

Lemma publish_tf_ready s (message : tfMessage) :
  tf_ready (ros s) ->
  ROSPublisherTF.publish_tf message s
  = Ok () (set_ros (send "/tf" (Tf message)) s).
Proof.
  intros (p & Hp & Hn). unfold ROSPublisherTF.publish_tf, mbind, M_bind, gets.
  rewrite Hp. simpl. unfold on_ros, Publisher_publish, modify. by rewrite Hn.
Qed.

Lemma sent_on_send name (m : Payload) w :
  sent_on name (send name m w) = (sent_on name w ++ [m])%list.
Proof.
  unfold sent_on. simpl. rewrite filter_app, fmap_app. f_equal.
  rewrite filter_cons_True by done. done.
Qed.

Lemma keeps_this_publish_tf (message : tfMessage) :
  keeps_this (ROSPublisherTF.publish_tf message).
Proof.
  unfold ROSPublisherTF.publish_tf.
  apply keeps_this_bind; auto with frame.
Qed.

Lemma keeps_this_sendTransform translation rotation time child parent :
  keeps_this
    (ROSPublisherTF.sendTransform translation rotation time child parent).
Proof. apply keeps_this_publish_tf. Qed.

Lemma keeps_this_send_transform_robot time child parent :
  keeps_this (ROSPublisherTF.send_transform_robot time child parent).
Proof.
  unfold ROSPublisherTF.send_transform_robot,
    ROSPublisherTF.get_local_transform.
  frame_steps; apply keeps_this_sendTransform.
Qed.

End PublisherFacts.

Section PublisherClaims.
Context {P : Platform}.
Implicit Types (s : Sys ROSPublisher.t) (w : Ros) (d : Datastream).

(** C3.  [initialize] sets the sequence counter to 0; publishing any
    list of messages one after the other succeeds, hands exactly those
    messages to the publisher's topic and leaves the counter at their
    number; and no call of [publish] lowers the counter: it adds one where
    the instance has its publisher, and raises without touching the
    counter where it has none. *)
Theorem sequence_counts_published d (cls : ros_class) w (msgs : list Msg) :
  (exists self w' p s',
      ROSPublisher.initialize d cls w = Ok self w' /\
      ROSPublisher.sequence self = 0%Z /\
      AbstractROS.topic (ROSPublisher.super self) = Some p /\
      for_each ROSPublisher.publish msgs {| this := self; ros := w' |}
      = Ok () s' /\
      ROSPublisher.sequence (this s') = Z.of_nat (length msgs) /\
      wire (ros s') = (wire w' ++ published p msgs)%list) /\
  (forall s m,
      ROSPublisher.sequence (this (final (ROSPublisher.publish m s)))
      = (ROSPublisher.sequence (this s)
         + match AbstractROS.topic (ROSPublisher.super (this s)) with
           | Some _ => 1
           | None => 0
           end)%Z).
Proof.
  split.
  - destruct (publisher_initialized d cls w) as (self & w' & p & Hi & H0 & Hp).
    destruct (for_each_publish {| this := self; ros := w' |} p msgs Hp)
      as (s' & Hrun & Hn & Hw).
    exists self, w', p, s'. simpl in Hn. rewrite H0 in Hn. done.
  - intros s m.
    destruct (AbstractROS.topic (ROSPublisher.super (this s))) as [p|] eqn:Hp.
    + by rewrite (publish_some _ _ _ Hp).
    + rewrite (publish_none _ _ Hp). simpl. lia.
Qed.

(** C6.  Once the class has its ["/tf"] publisher, [sendTransform]
    returns after handing to the ["/tf"] topic one [tfMessage] that holds
    exactly one [TransformStamped], whose [header.frame_id] is [parent],
    [header.stamp] is [time], [child_frame_id] is [child],
    [transform.translation] is [translation] and [transform.rotation] is
    [rotation]. *)
Theorem sendTransform_publishes s (tr : Vector3) (rot : Quaternion)
    (time : Time) (child parent : string) :
  tf_ready (ros s) ->
  exists t s',
    ROSPublisherTF.sendTransform tr rot time child parent s = Ok () s' /\
    s' = set_ros (send "/tf" (Tf {| transforms := [t] |})) s /\
    sent_on "/tf" (ros s')
    = (sent_on "/tf" (ros s) ++ [Tf {| transforms := [t] |}])%list /\
    hdr_frame_id (header t) = parent /\
    hdr_stamp (header t) = time /\
    child_frame_id t = child /\
    translation (transform t) = tr /\
    rotation (transform t) = rot.
Proof.
  intros Hready.
  exists (stamped tr rot time child parent). eexists.
  split; [apply (publish_tf_ready _ _ Hready)|].
  split; [reflexivity|]. split; [apply sent_on_send|]. done.
Qed.

(** C7.  [get_ros_header] returns a header whose [seq] is the
    publisher's sequence counter, whose [frame_id] is the publisher's
    [frame_id] and whose [stamp] is the current time, and changes neither
    the instance nor anything outside it; [initialize] sets that
    [frame_id] to the ['frame_id'] keyword argument if there is one and to
    the topic name otherwise. *)
Theorem get_ros_header_reads :
  (forall s, exists h,
      ROSPublisher.get_ros_header s = Ok h s /\
      hdr_seq h = ROSPublisher.sequence (this s) /\
      hdr_frame_id h = ROSPublisher.frame_id (this s) /\
      hdr_stamp h = now (ros s)) /\
  (forall d (cls : ros_class) w, exists self w',
      ROSPublisher.initialize d cls w = Ok self w' /\
      ROSPublisher.frame_id self
      = match kwargs d !! "frame_id" with
        | Some f => f
        | None => AbstractROS.topic_name (ROSPublisher.super self)
        end).
Proof.
  split.
  - intros s. eexists. split.
    + unfold ROSPublisher.get_ros_header, mbind, M_bind, gets, on_ros.
      simpl. rewrite sys_eta. reflexivity.
    + done.
  - intros d cls w. eexists _, _. split; [reflexivity|]. simpl.
    by destruct (kwargs d !! "frame_id").
Qed.

(** C8.  [AbstractROS.initialize] returns with [topic_name] set to the
    ['topic'] keyword argument when there is one, whatever the component
    is called, and to [get_topic_name] of the component name only when
    there is none; the publisher's and the reader's [initialize] keep that
    [topic_name]. *)
Theorem initialize_topic_name {T D : Type} d w (cls : ros_class) (data : D) :
  exists (self : AbstractROS.t T) w' pub wp rd wr,
    AbstractROS.initialize d w = Ok self w' /\
    ROSPublisher.initialize d cls w = Ok pub wp /\
    ROSReader.initialize d data cls w = Ok rd wr /\
    AbstractROS.topic_name (ROSPublisher.super pub)
    = AbstractROS.topic_name self /\
    AbstractROS.topic_name (ROSReader.super rd)
    = AbstractROS.topic_name self /\
    (forall name,
        kwargs d !! "topic" = Some name ->
        AbstractROS.topic_name self = name) /\
    (kwargs d !! "topic" = None ->
     AbstractROS.topic_name self = get_topic_name (component_name d)).
Proof.
  eexists _, _, _, _, _, _. repeat (split; [reflexivity|]). simpl.
  split; [intros name ->|intros ->]; reflexivity.
Qed.

(** C9.  [publish_tf], [sendTransform] and [send_transform_robot] leave
    every attribute of the instance as it was, the sequence counter
    among them, whether they return or raise, whereas [publish] on an
    instance that has its publisher adds one to the counter. *)
Theorem tf_broadcast_keeps_instance s :
  (forall message : tfMessage,
      this (final (ROSPublisherTF.publish_tf message s)) = this s) /\
  (forall translation rotation time child parent,
      this (final (ROSPublisherTF.sendTransform
                     translation rotation time child parent s)) = this s) /\
  (forall time child parent,
      this (final (ROSPublisherTF.send_transform_robot time child parent s))
      = this s) /\
  (forall time child parent,
      ROSPublisher.sequence
        (this (final (ROSPublisherTF.send_transform_robot
                        time child parent s)))
      = ROSPublisher.sequence (this s)) /\
  (forall (m : Msg) p,
      AbstractROS.topic (ROSPublisher.super (this s)) = Some p ->
      ROSPublisher.sequence (this (final (ROSPublisher.publish m s)))
      = (ROSPublisher.sequence (this s) + 1)%Z).
Proof.
  split; [|split; [|split; [|split]]]; intros.
  - apply keeps_this_publish_tf.
  - apply keeps_this_sendTransform.
  - apply keeps_this_send_transform_robot.
  - by rewrite keeps_this_send_transform_robot.
  - by erewrite publish_some.
Qed.

End PublisherClaims.

(** *** The publisher on the demonstration platform *)

Section PublisherRuns.
Local Existing Instance Demo.platform.

Example broadcaster_initialized :
  ROSPublisherTF.initialize (Demo.sensor ∅) cls_String Demo.boot
  = Ok (this Demo.broadcaster) (ros Demo.broadcaster).
Proof. reflexivity. Qed.

Example broadcaster_publishes :
  for_each (ROSPublisher.publish (P:=Demo.platform)) ["a"; "b"; "c"]
    Demo.broadcaster
  = Ok () (set_this (ROSPublisher.set_sequence (fun _ => 3%Z))
             (set_ros (fun w =>
                send "/robot001/sensor001" (Data "c")
                  (send "/robot001/sensor001" (Data "b")
                     (send "/robot001/sensor001" (Data "a") w)))
                Demo.broadcaster)).
Proof. reflexivity. Qed.

Example broadcaster_send_transform_robot :
  ROSPublisherTF.send_transform_robot (P:=Demo.platform)
    None (Some EmptyString) None Demo.broadcaster
  = Ok () (set_ros
             (send "/tf"
                (Tf {| transforms :=
                         [stamped (1, 2, 3)%Z (0, 0, 0, 1)%Z 17%Z
                            "/robot001/sensor001" "base_link"] |}))
             Demo.broadcaster).
Proof. reflexivity. Qed.

Lemma sendTransform_publishes_witness :
  tf_ready (ros Demo.broadcaster) /\
  exists t s',
    ROSPublisherTF.sendTransform (P:=Demo.platform)
      (1, 2, 3)%Z (0, 0, 0, 1)%Z 5%Z "camera" "base_link" Demo.broadcaster
    = Ok () s' /\
    s' = set_ros (send "/tf" (Tf {| transforms := [t] |})) Demo.broadcaster /\
    sent_on "/tf" (ros s')
    = (sent_on "/tf" (ros Demo.broadcaster)
         ++ [Tf {| transforms := [t] |}])%list /\
    hdr_frame_id (header t) = "base_link" /\
    hdr_stamp (header t) = 5%Z /\
    child_frame_id t = "camera" /\
    translation (transform t) = (1, 2, 3)%Z /\
    rotation (transform t) = (0, 0, 0, 1)%Z.
Proof.
  assert (tf_ready (ros Demo.broadcaster)) as Hready.
  { eexists. split; reflexivity. }
  split; [exact Hready|].
  exact (sendTransform_publishes (P:=Demo.platform) Demo.broadcaster
           (1, 2, 3)%Z (0, 0, 0, 1)%Z 5%Z "camera" "base_link" Hready).
Defined.

Lemma tf_broadcast_keeps_instance_witness :
  this (final (ROSPublisherTF.send_transform_robot (P:=Demo.platform)
                 None None None Demo.broadcaster))
  = this Demo.broadcaster /\
  ROSPublisher.sequence
    (this (final (ROSPublisher.publish (P:=Demo.platform) "a"
                    Demo.broadcaster))) = 1%Z.
Proof.
  destruct (tf_broadcast_keeps_instance (P:=Demo.platform) Demo.broadcaster)
    as (_ & _ & Hrobot & _ & Hpublish).
  split; [exact (Hrobot None None None)|].
  exact (Hpublish "a" _ eq_refl).
Defined.

Lemma initialize_topic_name_witness :
  (exists self w',
      AbstractROS.initialize (T:=Publisher)
        (Demo.sensor {["topic" := "/chatter"]}) Demo.boot = Ok self w' /\
      AbstractROS.topic_name self = "/chatter") /\
  (exists self w',
      AbstractROS.initialize (T:=Publisher) (Demo.sensor ∅) Demo.boot
      = Ok self w' /\
      AbstractROS.topic_name self = "/robot001/sensor001").
Proof.
  split.
  - destruct (initialize_topic_name (P:=Demo.platform) (T:=Publisher)
                (Demo.sensor {["topic" := "/chatter"]}) Demo.boot
                cls_String ())
      as (self & w' & _ & _ & _ & _ & Hi & _ & _ & _ & _ & Hkw & _).
    exists self, w'. split; [exact Hi|]. apply Hkw. reflexivity.
  - destruct (initialize_topic_name (P:=Demo.platform) (T:=Publisher)
                (Demo.sensor ∅) Demo.boot cls_String ())
      as (self & w' & _ & _ & _ & _ & Hi & _ & _ & _ & _ & _ & Hno).
    exists self, w'. split; [exact Hi|]. apply Hno. reflexivity.
Defined.

End PublisherRuns.


(** * Further properties of the adapter *)

(** ** Shape of the derived topic names *)

(** Whether [c] occurs in [s]. *)
Fixpoint occurs (c : ascii) (s : string) : bool :=
  match s with
  | String a r => bool_decide (a = c) || occurs c r
  | EmptyString => false
  end.

(** [s] without its ['.'] and ['/'] characters. *)
Fixpoint without_separators (s : string) : string :=
  match s with
  | String c r =>
      if bool_decide (c = "."%char) || bool_decide (c = "/"%char)
      then without_separators r
      else String c (without_separators r)
  | EmptyString => EmptyString
  end.

Section TopicNameShape.

Lemma replace_dot_slash_no_dot s : occurs "." (Re.replace_dot_slash s) = false.
Proof.
  induction s as [|c r IH]; simpl; [done|].
  rewrite IH, orb_false_r. destruct (ascii_dec c "."); by case_bool_decide.
Qed.

Lemma delete_numeric_dots_no_dot s :
  occurs "." s = false -> delete_numeric_dots s = s.
Proof.
  induction s as [|c r IH]; simpl; [done|].
  intros [Hc Hr]%orb_false_elim. rewrite Hc. simpl. by rewrite IH.
Qed.

Lemma replace_dot_slash_no_dot_id s :
  occurs "." s = false -> Re.replace_dot_slash s = s.
Proof.
  induction s as [|c r IH]; simpl; [done|].
  intros [Hc Hr]%orb_false_elim. rewrite IH by done.
  destruct (ascii_dec c ".") as [->|]; [done|done].
Qed.

Lemma without_separators_replace s :
  without_separators (Re.replace_dot_slash s) = without_separators s.
Proof.
  induction s as [|c r IH]; simpl; [done|].
  destruct (ascii_dec c ".") as [->|Hc]; simpl; [done|].
  by rewrite IH.
Qed.

Lemma without_separators_delete s :
  without_separators (delete_numeric_dots s) = without_separators s.
Proof.
  induction s as [|c r IH]; simpl; [done|].
  destruct (decide (c = "."%char)) as [->|Hc].
  - destruct (starts_with_digit r); simpl; by rewrite IH.
  - rewrite (bool_decide_eq_false_2 _ Hc). simpl.
    rewrite (bool_decide_eq_false_2 _ Hc). by rewrite IH.
Qed.

(** What [delete_numeric_dots] does to a prefix depends on what follows
    it only through the first character that follows. *)
Lemma delete_numeric_dots_prefix a c x y :
  delete_numeric_dots (String c x) = delete_numeric_dots (String c y) ->
  delete_numeric_dots (a ++ String c x) = delete_numeric_dots (a ++ String c y).
Proof.
  intros Hxy. induction a as [|e a IH]; [done|].
  change (delete_numeric_dots (String e (a ++ String c x))
          = delete_numeric_dots (String e (a ++ String c y))).
  simpl. rewrite IH.
  assert (starts_with_digit (a ++ String c x)
          = starts_with_digit (a ++ String c y)) as -> by by destruct a.
  done.
Qed.

(** X1.  Whatever the component is called, the derived topic name starts
    with ['/'] and has no ['.'] in it. *)
Theorem get_topic_name_shape component_name :
  exists path,
    get_topic_name component_name = String "/" path /\
    occurs "." (get_topic_name component_name) = false.
Proof.
  unfold get_topic_name. eexists. split; [reflexivity|].
  simpl. apply replace_dot_slash_no_dot.
Qed.

(** X2.  A component name without any ['.'] (the empty name included) is
    taken over as it is, with ['/'] in front. *)
Theorem get_topic_name_no_dot component_name :
  occurs "." component_name = false ->
  get_topic_name component_name = String "/" component_name.
Proof.
  intros Hs. unfold get_topic_name.
  rewrite sub_dot_digits_deletes, delete_numeric_dots_no_dot by done.
  by rewrite replace_dot_slash_no_dot_id.
Qed.

(** X3.  Topic names are not unique to component names: a ['.'] put
    between a character other than ['.'] and a digit does not change the
    topic name, so [robot.001] and [robot001] share a topic. *)
Theorem get_topic_name_collision a c d r :
  c <> "."%char -> Re.is_digit d = true ->
  get_topic_name (a ++ String c (String "." (String d r)))
  = get_topic_name (a ++ String c (String d r)).
Proof.
  intros Hc Hd. unfold get_topic_name.
  rewrite !sub_dot_digits_deletes. do 2 f_equal.
  apply delete_numeric_dots_prefix. simpl.
  by rewrite (bool_decide_eq_false_2 _ Hc), Hd.
Qed.

(** X4.  The derivation touches separators only: apart from ['.'] and
    ['/'], the topic name has the characters of the component name, in the
    same order. *)
Theorem get_topic_name_keeps_letters component_name :
  without_separators (get_topic_name component_name)
  = without_separators component_name.
Proof.
  unfold get_topic_name.
  change (without_separators
            (Re.replace_dot_slash (Re.sub_dot_digits component_name))
          = without_separators component_name).
  by rewrite without_separators_replace, sub_dot_digits_deletes,
    without_separators_delete.
Qed.

Lemma get_topic_name_no_dot_witness :
  get_topic_name "camera" = "/camera".
Proof. apply (get_topic_name_no_dot "camera"). reflexivity. Defined.

Lemma get_topic_name_collision_witness :
  get_topic_name "robot.001" = get_topic_name "robot001".
Proof.
  apply (get_topic_name_collision "robo" "t" "0" "01"); [discriminate|].
  reflexivity.
Defined.

End TopicNameShape.

(** ** Sessions of a publisher *)

Section PublisherSessions.
Context {P : Platform}.
Implicit Types (s : Sys ROSPublisher.t) (w : Ros) (d : Datastream).

(** The calls a component makes on its publisher. *)
Inductive publisher_op :=
| Publish (m : Msg)
| ReadHeader
| PublishTf (m : tfMessage)
| SendTransform (tr : Vector3) (rot : Quaternion) (time : Time)
    (child parent : string)
| SendTransformRobot (time : option Time) (child parent : option string).

Definition publisher_call (o : publisher_op) : M (Sys ROSPublisher.t) unit :=
  match o with
  | Publish m => ROSPublisher.publish m
  | ReadHeader => ROSPublisher.get_ros_header;; mret ()
  | PublishTf m => ROSPublisherTF.publish_tf m
  | SendTransform tr rot time child parent =>
      ROSPublisherTF.sendTransform tr rot time child parent
  | SendTransformRobot time child parent =>
      ROSPublisherTF.send_transform_robot time child parent
  end.

(** How many of the calls are [publish], and how many hand a message to
    the middleware. *)
Fixpoint publishes (ops : list publisher_op) : nat :=
  match ops with
  | [] => 0
  | Publish _ :: r => S (publishes r)
  | _ :: r => publishes r
  end.

Fixpoint sends (ops : list publisher_op) : nat :=
  match ops with
  | [] => 0
  | ReadHeader :: r => sends r
  | _ :: r => S (sends r)
  end.

(** A caller that stamps each message: it takes a header and then
    publishes. *)
Definition publish_stamped (m : Msg) : M (Sys ROSPublisher.t) Header :=
  h ← ROSPublisher.get_ros_header;
  ROSPublisher.publish m;;
  mret h.

(** One call per element, collecting what the calls return. *)
Fixpoint collect {S A B} (f : A -> M S B) (l : list A) : M S (list B) :=
  match l with
  | [] => mret []
  | a :: r => b ← f a; bs ← collect f r; mret (b :: bs)
  end.

(** The defaults of [send_transform_robot]. *)
Definition own_parent_frame s : string :=
  default "base_link"
    (kwargs (AbstractROS.ds (ROSPublisher.super (this s)))
       !! "parent_frame_id").

Definition own_transform s : Vector3 * Quaternion :=
  let obj := bge_object (AbstractROS.ds (ROSPublisher.super (this s))) in
  (localPosition obj, to_quaternion (localOrientation obj)).

(** An optional argument as [send_transform_robot] reads it: the value
    given if its truth value is [True], the default otherwise. *)
Definition given_or {A} (truth : A -> bool) (arg : option A) (dflt : A) : A :=
  match arg with
  | Some v => if truth v then v else dflt
  | None => dflt
  end.

Lemma get_ros_header_run s :
  ROSPublisher.get_ros_header s
  = Ok {| hdr_seq := ROSPublisher.sequence (this s);
          hdr_stamp := now (ros s);
          hdr_frame_id := ROSPublisher.frame_id (this s) |} s.
Proof.
  unfold ROSPublisher.get_ros_header, mbind, M_bind, gets, on_ros. simpl.
  by rewrite sys_eta.
Qed.

Lemma send_transform_robot_resolved s time child parent :
  ROSPublisherTF.send_transform_robot time child parent s
  = ROSPublisherTF.sendTransform (own_transform s).1 (own_transform s).2
      (given_or Time_bool time (now (ros s)))
      (given_or str_bool child (ROSPublisher.frame_id (this s)))
      (given_or str_bool parent (own_parent_frame s)) s.
Proof.
  unfold ROSPublisherTF.send_transform_robot, given_or, mbind, M_bind, gets.
  simpl.
  destruct time as [t|]; [destruct (Time_bool t)|];
    (destruct child as [c|]; [destruct (str_bool c)|]);
    (destruct parent as [p|]; [destruct (str_bool p)|]);
    simpl; unfold on_ros; simpl; by rewrite ?sys_eta.
Qed.

Lemma given_or_true {A} (truth : A -> bool) (v d : A) :
  truth v = true -> given_or truth (Some v) d = v.
Proof. intros Hv. unfold given_or. by rewrite Hv. Qed.

Lemma given_or_false {A} (truth : A -> bool) (arg : option A) (d : A) :
  opt_bool truth arg = false -> given_or truth arg d = d.
Proof. destruct arg as [v|]; simpl; [by intros ->|done]. Qed.

Lemma send_transform_robot_run s time child parent :
  tf_ready (ros s) ->
  exists t,
    ROSPublisherTF.send_transform_robot time child parent s
    = Ok () (set_ros (send "/tf" (Tf {| transforms := [t] |})) s).
Proof.
  intros Hready.
  unfold ROSPublisherTF.send_transform_robot, mbind, M_bind, gets. simpl.
  destruct time as [t|]; [destruct (Time_bool t)|];
    (destruct child as [c|]; [destruct (str_bool c)|]);
    (destruct parent as [p|]; [destruct (str_bool p)|]);
    simpl; unfold on_ros; simpl; rewrite ?sys_eta;
    eexists; apply (publish_tf_ready _ _ Hready).
Qed.

End PublisherSessions.

Section PublisherProperties.
Context {P : Platform}.
Implicit Types (s : Sys ROSPublisher.t) (w : Ros) (d : Datastream).

Lemma append_same_iff (a x : string) : a ++ x = a <-> x = EmptyString.
Proof.
  split.
  - induction a as [|c a IH]; [done|].
    change (String c (a ++ x) = String c a -> x = EmptyString).
    intros [= Ha]. by apply IH.
  - intros ->. induction a as [|c a IH]; [done|].
    change (String c (a ++ EmptyString) = String c a). by rewrite IH.
Qed.

Lemma publisher_session_run s p ops :
  AbstractROS.topic (ROSPublisher.super (this s)) = Some p ->
  tf_ready (ros s) ->
  exists s',
    for_each publisher_call ops s = Ok () s' /\
    ROSPublisher.sequence (this s')
    = (ROSPublisher.sequence (this s) + Z.of_nat (publishes ops))%Z /\
    ROSPublisher.super (this s') = ROSPublisher.super (this s) /\
    ROSPublisher.frame_id (this s') = ROSPublisher.frame_id (this s) /\
    topic_tf (ros s') = topic_tf (ros s) /\
    length (wire (ros s')) = length (wire (ros s)) + sends ops.
Proof.
  revert s. induction ops as [|o ops IH]; intros s Hp Hready.
  { exists s. simpl. repeat split; lia. }
  assert (forall s1,
    publisher_call o s = Ok () s1 ->
    ROSPublisher.super (this s1) = ROSPublisher.super (this s) ->
    ROSPublisher.frame_id (this s1) = ROSPublisher.frame_id (this s) ->
    topic_tf (ros s1) = topic_tf (ros s) ->
    (ROSPublisher.sequence (this s1) + Z.of_nat (publishes ops)
     = ROSPublisher.sequence (this s) + Z.of_nat (publishes (o :: ops)))%Z ->
    length (wire (ros s1)) + sends ops
    = length (wire (ros s)) + sends (o :: ops) ->
    exists s',
      for_each publisher_call (o :: ops) s = Ok () s' /\
      ROSPublisher.sequence (this s')
      = (ROSPublisher.sequence (this s) + Z.of_nat (publishes (o :: ops)))%Z /\
      ROSPublisher.super (this s') = ROSPublisher.super (this s) /\
      ROSPublisher.frame_id (this s') = ROSPublisher.frame_id (this s) /\
      topic_tf (ros s') = topic_tf (ros s) /\
      length (wire (ros s')) = length (wire (ros s)) + sends (o :: ops))
    as Hstep.
  { intros s1 Hcall Hsuper Hframe Htf Hseq Hwire.
    destruct (IH s1) as (s' & Hrun & Hn & Hs & Hf & Ht & Hw).
    - by rewrite Hsuper.
    - unfold tf_ready. by rewrite Htf.
    - exists s'. cbn [for_each]. unfold mbind, M_bind. rewrite Hcall.
      repeat split; [done|lia|congruence|congruence|congruence|lia]. }
  destruct o as [m| |m|tr rot time child parent|time child parent].
  - apply (Hstep _ (publish_some _ _ _ Hp)); simpl; try done; try lia.
    rewrite length_app. simpl. lia.
  - apply (Hstep s); simpl; try done.
    unfold mbind, M_bind. by rewrite get_ros_header_run.
  - apply (Hstep _ (publish_tf_ready _ m Hready)); simpl; try done.
    rewrite length_app. simpl. lia.
  - apply (Hstep _ (publish_tf_ready _ _ Hready)); simpl; try done.
    rewrite length_app. simpl. lia.
  - destruct (send_transform_robot_run s time child parent Hready) as (t & Ht).
    apply (Hstep _ Ht); simpl; try done.
    rewrite length_app. simpl. lia.
Qed.

Lemma publish_stamped_run s p m :
  AbstractROS.topic (ROSPublisher.super (this s)) = Some p ->
  publish_stamped m s
  = Ok {| hdr_seq := ROSPublisher.sequence (this s);
          hdr_stamp := now (ros s);
          hdr_frame_id := ROSPublisher.frame_id (this s) |}
       (set_this (ROSPublisher.set_sequence (fun n => n + 1)%Z)
          (set_ros (send (pub_name p) (Data m)) s)).
Proof.
  intros Hp. unfold publish_stamped, mbind, M_bind.
  by rewrite get_ros_header_run, (publish_some _ _ _ Hp).
Qed.

Lemma collect_publish_stamped s p msgs :
  AbstractROS.topic (ROSPublisher.super (this s)) = Some p ->
  exists hs s',
    collect publish_stamped msgs s = Ok hs s' /\
    hdr_seq <$> hs
    = seqZ (ROSPublisher.sequence (this s)) (Z.of_nat (length msgs)) /\
    Forall (fun h => hdr_frame_id h = ROSPublisher.frame_id (this s)) hs.
Proof.
  revert s. induction msgs as [|m msgs IH]; intros s Hp.
  { exists [], s. by repeat split. }
  destruct (IH (set_this (ROSPublisher.set_sequence (fun n => n + 1)%Z)
                  (set_ros (send (pub_name p) (Data m)) s)) Hp)
    as (hs & s' & Hrun & Hseq & Hframe).
  eexists (_ :: hs), s'. split; [|split].
  - cbn [collect]. unfold mbind, M_bind.
    rewrite (publish_stamped_run _ _ _ Hp), Hrun. reflexivity.
  - rewrite fmap_cons, Hseq. cbn [length]. rewrite Nat2Z.inj_succ.
    rewrite (seqZ_cons (ROSPublisher.sequence (this s))) by lia.
    f_equal. f_equal; simpl; lia.
  - constructor; [done|]. exact Hframe.
Qed.

(** X5.  The publisher registers on the topic name followed by the
    ['topic_suffix'] keyword argument, if there is one; the reader
    subscribes to the topic name itself and ignores ['topic_suffix'].  With
    the same keyword arguments the two meet on one topic exactly when
    there is no suffix or an empty one. *)
Theorem topic_suffix_only_for_publisher {D : Type} d (cls : ros_class) w
    (data : D) :
  exists pub wp p rd wr sb,
    ROSPublisher.initialize d cls w = Ok pub wp /\
    AbstractROS.topic (ROSPublisher.super pub) = Some p /\
    ROSReader.initialize d data cls w = Ok rd wr /\
    AbstractROS.topic (ROSReader.super rd) = Some sb /\
    pub_name p
    = AbstractROS.topic_name (ROSPublisher.super pub)
      ++ default EmptyString (kwargs d !! "topic_suffix") /\
    sub_name sb = AbstractROS.topic_name (ROSPublisher.super pub) /\
    (pub_name p = sub_name sb <->
     default EmptyString (kwargs d !! "topic_suffix") = EmptyString).
Proof.
  eexists _, _, _, _, _, _. repeat (split; [reflexivity|]). simpl.
  destruct (kwargs d !! "topic_suffix") as [sfx|]; simpl.
  - split; [reflexivity|]. split; [reflexivity|]. apply append_same_iff.
  - split; [by rewrite (proj2 (append_same_iff _ _) eq_refl)|]. done.
Qed.

Lemma tf_initialized d (cls : ros_class) w :
  exists self w' p,
    ROSPublisherTF.initialize d cls w = Ok self w' /\
    AbstractROS.topic (ROSPublisher.super self) = Some p /\
    ROSPublisher.sequence self = 0%Z /\
    topic_tf w'
    = Some (default {| pub_name := "/tf"; pub_class := cls_tfMessage |}
              (topic_tf w)) /\
    wire w' = wire w /\
    (tf_wf w -> tf_ready w').
Proof.
  unfold ROSPublisherTF.initialize, mbind, M_bind. simpl.
  destruct (topic_tf w) as [q|] eqn:Htf; simpl;
    eexists _, _, _; (split; [reflexivity|]); simpl; repeat split; try done.
  - intros Hw. exists q. split; [done|]. by apply Hw.
  - intros _. by eexists.
Qed.

(** X6.  The ["/tf"] publisher of the class is made once and shared: the
    first [ROSPublisherTF.initialize] makes it unless the class already
    has one, a later one leaves it as it is, and neither publishes
    anything. *)
Theorem topic_tf_made_once d1 d2 (cls1 cls2 : ros_class) w :
  exists self1 w1 self2 w2 p,
    ROSPublisherTF.initialize d1 cls1 w = Ok self1 w1 /\
    ROSPublisherTF.initialize d2 cls2 w1 = Ok self2 w2 /\
    topic_tf w1 = Some p /\
    topic_tf w2 = Some p /\
    p = default {| pub_name := "/tf"; pub_class := cls_tfMessage |}
          (topic_tf w) /\
    wire w2 = wire w.
Proof.
  destruct (tf_initialized d1 cls1 w)
    as (self1 & w1 & _ & H1 & _ & _ & Ht1 & Hw1 & _).
  destruct (tf_initialized d2 cls2 w1)
    as (self2 & w2 & _ & H2 & _ & _ & Ht2 & Hw2 & _).
  exists self1, w1, self2, w2. eexists.
  split; [exact H1|]. split; [exact H2|]. split; [exact Ht1|].
  rewrite Ht2, Ht1, Hw2, Hw1. done.
Qed.

(** X7.  A transform publisher initialized where the class attribute is
    unset or the ["/tf"] publisher never raises: any sequence of
    [publish], [get_ros_header], [publish_tf], [sendTransform] and
    [send_transform_robot] calls returns.  Afterwards the sequence counter
    is the number of [publish] calls, the topic, topic name and frame id
    are as [initialize] left them, and every call but [get_ros_header] has
    handed exactly one message to the middleware. *)
Theorem publisher_session d (cls : ros_class) w (ops : list publisher_op) :
  tf_wf w ->
  exists self w' s',
    ROSPublisherTF.initialize d cls w = Ok self w' /\
    for_each publisher_call ops {| this := self; ros := w' |} = Ok () s' /\
    ROSPublisher.sequence (this s') = Z.of_nat (publishes ops) /\
    ROSPublisher.super (this s') = ROSPublisher.super self /\
    ROSPublisher.frame_id (this s') = ROSPublisher.frame_id self /\
    tf_ready (ros s') /\
    length (wire (ros s')) = length (wire w) + sends ops.
Proof.
  intros Hw.
  destruct (tf_initialized d cls w)
    as (self & w' & p & Hi & Hp & H0 & Htf & Hwire & Hready).
  specialize (Hready Hw).
  destruct (publisher_session_run {| this := self; ros := w' |} p ops Hp Hready)
    as (s' & Hrun & Hn & Hs & Hf & Ht & Hl).
  exists self, w', s'. simpl in *.
  split; [exact Hi|]. split; [exact Hrun|]. split; [lia|].
  split; [exact Hs|]. split; [exact Hf|].
  split; [unfold tf_ready; by rewrite Ht|]. by rewrite Hl, Hwire.
Qed.

(** X8.  [send_transform_robot] sends the component's local position and
    the quaternion of its local orientation, and settles each of its three
    arguments on its own: a time whose truth value is [True] is used as
    given, any other (missing or zero) is replaced by the current time; a
    child whose truth value is [True] is used as given, any other (missing
    or the empty string) is replaced by the publisher's frame id; a parent
    whose truth value is [True] is used as given, any other is replaced by
    the ['parent_frame_id'] keyword argument, or ['base_link'] if there is
    none. *)
Theorem send_transform_robot_defaults s time child parent :
  exists t c p,
    ROSPublisherTF.send_transform_robot time child parent s
    = ROSPublisherTF.sendTransform (own_transform s).1 (own_transform s).2
        t c p s /\
    (forall v, time = Some v -> Time_bool v = true -> t = v) /\
    (opt_bool Time_bool time = false -> t = now (ros s)) /\
    (forall v, child = Some v -> str_bool v = true -> c = v) /\
    (opt_bool str_bool child = false -> c = ROSPublisher.frame_id (this s)) /\
    (forall v, parent = Some v -> str_bool v = true -> p = v) /\
    (opt_bool str_bool parent = false -> p = own_parent_frame s).
Proof.
  eexists _, _, _. split; [apply send_transform_robot_resolved|].
  repeat split.
  - intros v -> Hv. by apply given_or_true.
  - apply given_or_false.
  - intros v -> Hv. by apply given_or_true.
  - apply given_or_false.
  - intros v -> Hv. by apply given_or_true.
  - apply given_or_false.
Qed.

(** X10.  A caller that takes a header with [get_ros_header] right before
    each [publish] stamps the messages it publishes after [initialize]
    with the consecutive sequence numbers 0, 1, 2, ..., each under the
    publisher's frame id. *)
Theorem stamped_headers_consecutive d (cls : ros_class) w (msgs : list Msg) :
  exists self w' hs s',
    ROSPublisher.initialize d cls w = Ok self w' /\
    collect publish_stamped msgs {| this := self; ros := w' |} = Ok hs s' /\
    hdr_seq <$> hs = seqZ 0 (Z.of_nat (length msgs)) /\
    Forall (fun h => hdr_frame_id h = ROSPublisher.frame_id self) hs.
Proof.
  destruct (publisher_initialized d cls w) as (self & w' & p & Hi & H0 & Hp).
  destruct (collect_publish_stamped {| this := self; ros := w' |} p msgs Hp)
    as (hs & s' & Hrun & Hseq & Hframe).
  exists self, w', hs, s'. simpl in Hseq. rewrite H0 in Hseq. done.
Qed.

End PublisherProperties.

(** ** Sessions of a reader *)

Section ReaderSessions.
Context {P : Platform}.

(** The messages the middleware delivers in a run, in order. *)
Fixpoint deliveries (ops : list reader_op) : list Msg :=
  match ops with
  | [] => []
  | Deliver m :: r => m :: deliveries r
  | Poll :: r => deliveries r
  end.

(** How many polls answered [True]. *)
Fixpoint trues (bs : list bool) : nat :=
  match bs with
  | [] => 0
  | true :: r => S (trues r)
  | false :: r => trues r
  end.

(** A subclass whose [update] appends the message to its data. *)
Definition recording_update (m : Msg)
  : M (Sys (ROSReader.t (list Msg))) unit :=
  modify (set_this (ROSReader.set_local_data (fun l => (l ++ [m])%list))).

Lemma for_each_callback_occupied {D} (s : Sys (ROSReader.t D)) m ms :
  ROSReader.message (this s) = Some m ->
  for_each ROSReader.callback ms s = Ok () s.
Proof.
  intros Hs. induction ms as [|m' ms IH]; [done|].
  cbn [for_each]. unfold mbind, M_bind.
  by rewrite (callback_occupied _ _ m' Hs).
Qed.

Lemma sublist_insert_second {A} (c : list A) x y l :
  c `sublist_of` (x :: l) -> c `sublist_of` (x :: y :: l).
Proof.
  intros Hc. etrans; [exact Hc|].
  apply sublist_skip, sublist_cons. reflexivity.
Qed.

(** X13.  For a reader that records what [update] receives: any run of
    deliveries and polls returns; the messages recorded during the run are
    a subsequence, in order, of the message buffered at its start followed
    by the messages delivered; each of them has truth value [True]; and
    their number is the number of polls that returned [True]. *)
Theorem recorder_consumes_in_order (s : Sys (ROSReader.t (list Msg))) ops :
  exists bs s' c,
    run_reader recording_update ops s = Ok bs s' /\
    ROSReader.local_data (this s')
    = (ROSReader.local_data (this s) ++ c)%list /\
    c `sublist_of` (unread (this s) ++ deliveries ops)%list /\
    Forall (fun m => Msg_bool m = true) c /\
    trues bs = length c /\
    length bs = polls ops.
Proof.
  revert s. induction ops as [|[m|] ops IH]; intros s.
  - exists [], s, []. simpl. rewrite app_nil_r.
    repeat split; [apply sublist_nil_l|constructor].
  - cbn [run_reader]. unfold mbind, M_bind at 1.
    destruct (ROSReader.message (this s)) as [x|] eqn:Hs.
    + rewrite (callback_occupied _ _ m Hs).
      destruct (IH s) as (bs & s' & c & Hrun & Hl & Hc & Ht & Hb & Hn).
      exists bs, s', c. repeat split; try done.
      unfold unread in *. rewrite Hs in *. simpl in *.
      by apply sublist_insert_second.
    + rewrite (callback_empty _ m Hs).
      destruct (IH (set_this (ROSReader.set_message (Some m)) s))
        as (bs & s' & c & Hrun & Hl & Hc & Ht & Hb & Hn).
      exists bs, s', c. repeat split; try done.
      unfold unread. by rewrite Hs.
  - cbn [run_reader]. unfold mbind, M_bind at 1.
    destruct (opt_bool Msg_bool (ROSReader.message (this s))) eqn:Hb.
    + destruct (ROSReader.message (this s)) as [x|] eqn:Hs; [|done].
      simpl in Hb. rewrite (default_truthy _ _ _ Hs Hb).
      unfold recording_update at 1, modify.
      destruct (IH (set_this (ROSReader.set_message None)
                      (set_this (ROSReader.set_local_data
                                   (fun l => (l ++ [x])%list)) s)))
        as (bs & s' & c & Hrun & Hl & Hc & Ht & Htr & Hn).
      exists (true :: bs), s', (x :: c).
      unfold mbind, M_bind. rewrite Hrun. simpl in *.
      split; [done|]. split; [by rewrite Hl, <- app_assoc|].
      split; [unfold unread; rewrite Hs; by apply sublist_skip|].
      split; [by constructor|]. split; lia.
    + rewrite (default_not_truthy _ _ Hb).
      destruct (IH s) as (bs & s' & c & Hrun & Hl & Hc & Ht & Htr & Hn).
      exists (false :: bs), s', c.
      unfold mbind, M_bind. rewrite Hrun. simpl.
      repeat split; try done. lia.
Qed.

(** X11.  Of a burst of deliveries into an empty mailbox only the first
    message is kept: after the burst the slot holds the first message and
    nothing else has changed. *)
Theorem burst_keeps_first {D} (s : Sys (ROSReader.t D)) m ms :
  ROSReader.message (this s) = None ->
  for_each ROSReader.callback (m :: ms) s
  = Ok () (set_this (ROSReader.set_message (Some m)) s).
Proof.
  intros Hs. cbn [for_each]. unfold mbind, M_bind.
  rewrite (callback_empty _ m Hs).
  by apply (for_each_callback_occupied _ m).
Qed.

(** X12.  Whatever [update] does, a poll that follows a poll without a
    delivery in between returns [False] and changes nothing: no message is
    passed to [update] twice. *)
Theorem second_poll_finds_nothing {D}
    (update : Msg -> M (Sys (ROSReader.t D)) unit) s b s' :
  ROSReader.default update s = Ok b s' ->
  ROSReader.default update s' = Ok false s'.
Proof.
  intros Hd.
  destruct (opt_bool Msg_bool (ROSReader.message (this s))) eqn:Hb.
  - destruct (ROSReader.message (this s)) as [m|] eqn:Hs; [|done].
    rewrite (default_truthy _ _ _ Hs Hb) in Hd.
    destruct (update m s) as [[] s1|]; [|done]. injection Hd as <- <-.
    by apply default_not_truthy.
  - rewrite (default_not_truthy _ _ Hb) in Hd. injection Hd as <- <-.
    by apply default_not_truthy.
Qed.

End ReaderSessions.

(** *** The further properties on the demonstration platform *)

Section FurtherRuns.
Local Existing Instance Demo.platform.

Lemma publisher_session_witness :
  tf_wf Demo.boot /\
  exists self w' s',
    ROSPublisherTF.initialize (Demo.sensor ∅) cls_String Demo.boot
    = Ok self w' /\
    for_each (publisher_call (P:=Demo.platform))
      [Publish "a"; ReadHeader; SendTransformRobot None None None;
       Publish "b"]
      {| this := self; ros := w' |} = Ok () s' /\
    ROSPublisher.sequence (this s') = 2%Z /\
    ROSPublisher.super (this s') = ROSPublisher.super self /\
    ROSPublisher.frame_id (this s') = ROSPublisher.frame_id self /\
    tf_ready (ros s') /\
    length (wire (ros s')) = 3.
Proof.
  assert (tf_wf Demo.boot) as Hboot by (intros p Hp; discriminate Hp).
  split; [exact Hboot|].
  exact (publisher_session (P:=Demo.platform) (Demo.sensor ∅) cls_String
           Demo.boot
           [Publish "a"; ReadHeader; SendTransformRobot None None None;
            Publish "b"] Hboot).
Defined.

Lemma send_transform_robot_defaults_witness :
  ROSPublisherTF.send_transform_robot (P:=Demo.platform)
    (Some 5%Z) None (Some EmptyString) Demo.broadcaster
  = ROSPublisherTF.sendTransform (1, 2, 3)%Z (0, 0, 0, 1)%Z
      5%Z "/robot001/sensor001" "base_link" Demo.broadcaster.
Proof.
  destruct (send_transform_robot_defaults (P:=Demo.platform) Demo.broadcaster
              (Some 5%Z) None (Some EmptyString))
    as (t & c & p & Hrun & Ht & _ & _ & Hc & _ & Hp).
  rewrite Hrun, (Ht 5%Z eq_refl eq_refl), (Hc eq_refl), (Hp eq_refl).
  reflexivity.
Defined.

Lemma burst_keeps_first_witness :
  for_each (ROSReader.callback (P:=Demo.platform)) ["a"; "b"; "c"]
    (Demo.reader None)
  = Ok () (Demo.reader (Some "a")).
Proof.
  exact (burst_keeps_first (P:=Demo.platform) (Demo.reader None)
           "a" ["b"; "c"] eq_refl).
Defined.

Lemma second_poll_finds_nothing_witness :
  ROSReader.default (P:=Demo.platform) Demo.record_update
    (set_this (ROSReader.set_local_data (fun _ => ["go"]))
       (Demo.reader None))
  = Ok false
      (set_this (ROSReader.set_local_data (fun _ => ["go"]))
         (Demo.reader None)).
Proof.
  exact (second_poll_finds_nothing (P:=Demo.platform) Demo.record_update
           (Demo.reader (Some "go")) true _ eq_refl).
Defined.

End FurtherRuns.

(** *** A reader of [std_msgs/String] *)

Module StdMsgs.

(** [std_msgs/String]: one field, [data]. *)
Record String_ := { data : string }.

(** The demonstration platform with [std_msgs/String] payloads.  A message
    object has truth value [True] whatever its [data]. *)
Definition platform : Platform := {|
  Time := Z;
  Time_zero := 0%Z;
  Time_bool := fun t => negb (t =? 0)%Z;
  Vector3 := Z * Z * Z;
  Vector3_zero := (0, 0, 0)%Z;
  Quaternion := Z * Z * Z * Z;
  Quaternion_zero := (0, 0, 0, 0)%Z;
  Matrix := Z * Z * Z * Z;
  to_quaternion := fun m => m;
  Msg := String_;
  Msg_bool := fun _ => true
|}.

#[local] Existing Instance platform.

Definition sensor : Datastream :=
  {| kwargs := ∅; component_name := "robot.001.sensor.001";
     bge_object :=
       {| localPosition := (1, 2, 3)%Z; localOrientation := (0, 0, 0, 1)%Z;
          localScale := (1, 1, 1)%Z |} |}.

(** An initialized reader with [slot] in its mailbox. *)
Definition reader (slot : option String_)
  : Sys (ROSReader.t (P:=platform) (list String_)) :=
  {| this :=
       {| ROSReader.super :=
            {| AbstractROS.ds := sensor;
               AbstractROS.topic :=
                 Some {| sub_name := "/robot001/sensor001";
                         sub_class := cls_String |};
               AbstractROS.topic_name := "/robot001/sensor001" |};
          ROSReader.message := slot;
          ROSReader.local_data := [] |};
     ros := {| node_up := true; now := 17%Z; topic_tf := None; wire := [] |} |}.

End StdMsgs.

Section StringReaderRuns.
Local Existing Instance StdMsgs.platform.

Example string_reader_initialized :
  ROSReader.initialize (P:=StdMsgs.platform) StdMsgs.sensor [] cls_String
    {| node_up := false; now := 17%Z; topic_tf := None; wire := [] |}
  = Ok (this (StdMsgs.reader None)) (ros (StdMsgs.reader None)).
Proof. reflexivity. Qed.


End StringReaderRuns.
